(** * Presentation components of the dashboard: a shallow embedding

    The components are React function components: each maps a props
    record to a tree of elements.  The embedding keeps that shape.  A
    component is a Rocq function from its props to a [node]; JSX
    elements are [Elem tag props children]; [null] is [Null]; event
    handlers are state transformers over the caller's world.

    JavaScript numbers are IEEE 754 binary64 values; they are modelled
    by the specification floats of the Standard Library, so that NaN,
    the two zeros and the infinities are all inputs of the theorems. *)

From Stdlib Require Import Bool List String Ascii ZArith Lia.
From Stdlib Require Import Floats.SpecFloat.
Import ListNotations.
Set Warnings "-register-all".
Open Scope string_scope.

(** ** JavaScript values used by the components *)

Module JS.

(** [number]: a binary64 float.  [spec_float] also has finite values
    outside binary64; statements quantified over it cover every
    JavaScript number. *)
Definition number : Type := spec_float.

Definition NaN : number := S754_nan.
Definition zero : number := S754_zero false.

(** An integer literal, rounded to binary64. *)
Definition of_Z (z : Z) : number := binary_normalize 53 1024 z 0 false.

(** ECMAScript IsLessThan(x, y) on numbers: undefined ([None]) when an
    operand is NaN, otherwise whether [x] is below [y]. *)
Definition IsLessThan (x y : number) : option bool :=
  match SFcompare x y with
  | None => None
  | Some Lt => Some true
  | Some _ => Some false
  end.

(** [x >= y]: with r = IsLessThan(x, y), false when r is true or
    undefined, true otherwise. *)
Definition ge (x y : number) : bool :=
  match IsLessThan x y with
  | Some false => true
  | _ => false
  end.

(** [x > y]: with r = IsLessThan(y, x), false when r is undefined,
    r otherwise. *)
Definition gt (x y : number) : bool :=
  match IsLessThan y x with
  | Some r => r
  | None => false
  end.

(** A value of type [number | undefined]. *)
Definition is_undefined {A : Type} (x : option A) : bool :=
  match x with
  | None => true
  | Some _ => false
  end.

(** ToNumber on [number | undefined]: undefined becomes NaN. *)
Definition ToNumber (x : option number) : number :=
  match x with
  | Some n => n
  | None => NaN
  end.

(** [x ?? d] *)
Definition nullish {A : Type} (x : option A) (d : A) : A :=
  match x with
  | Some a => a
  | None => d
  end.

End JS.

(** ** Element trees *)

Module React.

(** A prop value: the scalar kinds every component here passes, and
    [PExt] for what is specific to one component (handlers, records
    handed on to a child). *)
Inductive prop (X : Type) : Type :=
| PStr (s : string)
| PBool (b : bool)
| PNum (n : JS.number)
| PUndefined
| PExt (x : X).

Arguments PStr {X} s.
Arguments PBool {X} b.
Arguments PNum {X} n.
Arguments PUndefined {X}.
Arguments PExt {X} x.

Inductive node (X : Type) : Type :=
| Null
| Text (s : string)
| Number (n : JS.number)
| Elem (tag : string) (props : list (string * prop X)) (children : list (node X)).

Arguments Null {X}.
Arguments Text {X} s.
Arguments Number {X} n.
Arguments Elem {X} tag props children.

Section Queries.
Context {X : Type}.

Fixpoint assoc {A : Type} (k : string) (l : list (string * A)) : option A :=
  match l with
  | [] => None
  | (k', v) :: l' => if String.eqb k k' then Some v else assoc k l'
  end.

Definition get_prop (k : string) (n : node X) : option (prop X) :=
  match n with
  | Elem _ props _ => assoc k props
  | _ => None
  end.

Definition children_of (n : node X) : list (node X) :=
  match n with
  | Elem _ _ cs => cs
  | _ => []
  end.

(** Every element of the tree with the given tag, in document order. *)
Fixpoint find_all (t : string) (n : node X) : list (node X) :=
  match n with
  | Elem tag _ cs =>
      (if String.eqb tag t then [n] else []) ++ flat_map (find_all t) cs
  | _ => []
  end.

Definition contains_tag (t : string) (n : node X) : bool :=
  match find_all t n with
  | [] => false
  | _ :: _ => true
  end.

(** Every prop of the tree, in document order. *)
Fixpoint all_props (n : node X) : list (string * prop X) :=
  match n with
  | Elem _ props cs => props ++ flat_map all_props cs
  | _ => []
  end.

(** A child of type [number | undefined]: undefined renders nothing. *)
Definition child_of_number (x : option JS.number) : node X :=
  match x with
  | Some n => Number n
  | None => Null
  end.

End Queries.

End React.

(** ** The classnames library and class tokens *)

Module ClassNames.

(** [classNames({k1: v1, ...})]: the keys whose value is truthy, in
    the object's key order, joined by one space. *)
Definition classList (flags : list (string * bool)) : list string :=
  map fst (filter snd flags).

Definition classNames (flags : list (string * bool)) : string :=
  String.concat " " (classList flags).

(** The tokens of a class attribute: its maximal runs without a space. *)
Fixpoint tokens_from (cur : string) (s : string) : list string :=
  match s with
  | EmptyString =>
      match cur with
      | EmptyString => []
      | _ => [cur]
      end
  | String c s' =>
      if Ascii.eqb c " "%char then
        match cur with
        | EmptyString => tokens_from EmptyString s'
        | _ => cur :: tokens_from EmptyString s'
        end
      else tokens_from (cur ++ String c EmptyString) s'
  end.

Definition tokens (s : string) : list string := tokens_from EmptyString s.

Definition has_class (c : string) (className : string) : bool :=
  existsb (String.eqb c) (tokens className).

End ClassNames.

(** ** The DOM mutation row of the replay details view *)

Module Replay.

(** The event object a handler receives.  [stopPropagation] is its only
    method the row calls. *)
Record SyntheticEvent : Type := { propagationStopped : bool }.

Definition stopPropagation (e : SyntheticEvent) : SyntheticEvent :=
  {| propagationStopped := true |}.

(** The fields of a replay frame that the row reads. *)
Record ReplayFrame : Type := {
  offsetMs : JS.number;
  timestampMs : JS.number;
  message : option string
}.

Record Extraction : Type := { html : string; frame : ReplayFrame }.

(** What [getFrameDetails] returns, as far as the row destructures it. *)
Record FrameDetails : Type := { color : string; title : string; type : string }.

(** The options object handed to [beautify.html]. *)
Record HTMLBeautifyOptions : Type := { indent_size : Z }.

Definition CSSProperties : Type := list (string * string).

Section Row.

(** The caller's world, which its callbacks read and change. *)
Variable World : Type.

(** Imported collaborators: the frame-details lookup of the replay
    utilities and the HTML beautifier of js-beautify. *)
Variable getFrameDetails : ReplayFrame -> FrameDetails.
Variable beautify_html : string -> HTMLBeautifyOptions -> string.

Definition callback : Type := ReplayFrame -> World -> World.
Definition handler : Type := SyntheticEvent -> World -> SyntheticEvent * World.

Inductive ext : Type :=
| Handler (h : handler)
| Style (s : CSSProperties).

Record Props : Type := {
  currentHoverTime : option JS.number;
  currentTime : JS.number;
  handleMouseEnter : callback;
  handleMouseLeave : callback;
  mutation : Extraction;
  onClickTimestamp : callback;
  startTimestampMs : JS.number;
  style : CSSProperties
}.

(** [const hasOccurred = currentTime >= frame.offsetMs] *)
Definition hasOccurred (p : Props) : bool :=
  JS.ge (currentTime p) (offsetMs (frame (mutation p))).

(** [const isBeforeHover =
      currentHoverTime === undefined || currentHoverTime >= frame.offsetMs] *)
Definition isBeforeHover (p : Props) : bool :=
  JS.is_undefined (currentHoverTime p)
  || JS.ge (JS.ToNumber (currentHoverTime p)) (offsetMs (frame (mutation p))).

(** The object literal handed to [classNames]. *)
Definition classFlags (p : Props) : list (string * bool) :=
  [ ("beforeCurrentTime", hasOccurred p);
    ("afterCurrentTime", negb (hasOccurred p));
    ("beforeHoverTime",
      negb (JS.is_undefined (currentHoverTime p)) && isBeforeHover p);
    ("afterHoverTime",
      negb (JS.is_undefined (currentHoverTime p)) && negb (isBeforeHover p)) ].

Definition DomMutationRow (p : Props) : React.node ext :=
  let html := html (mutation p) in
  let frame := frame (mutation p) in
  let details := getFrameDetails frame in
  React.Elem "MutationListItem"
    [ ("className", React.PStr (ClassNames.classNames (classFlags p)));
      ("onMouseEnter",
        React.PExt (Handler (fun ev w => (ev, handleMouseEnter p frame w))));
      ("onMouseLeave",
        React.PExt (Handler (fun ev w => (ev, handleMouseLeave p frame w))));
      ("style", React.PExt (Style (style p))) ]
    [ React.Elem "IconWrapper"
        [ ("color", React.PStr (color details));
          ("hasOccurred", React.PBool (hasOccurred p)) ]
        [ React.Elem "BreadcrumbIcon" [ ("type", React.PStr (type details)) ] [] ];
      React.Elem "List" []
        [ React.Elem "Row" []
            [ React.Elem "Title" [ ("hasOccurred", React.PBool (hasOccurred p)) ]
                [ React.Text (title details) ];
              React.Elem "TimestampButton"
                [ ("onClick",
                    React.PExt (Handler (fun event w =>
                      let event := stopPropagation event in
                      (event, onClickTimestamp p frame w))));
                  ("startTimestampMs", React.PNum (startTimestampMs p));
                  ("timestampMs", React.PNum (timestampMs frame)) ]
                [] ];
          React.Elem "Selector" [] [ React.Text (JS.nullish (message frame) "") ];
          React.Elem "CodeContainer" []
            [ React.Elem "CodeSnippet"
                [ ("language", React.PStr "html");
                  ("hideCopyButton", React.PBool true) ]
                [ React.Text (beautify_html html {| indent_size := 2 |}) ] ] ] ].

(** The handlers a tree installs, with the prop that carries each. *)
Definition handlers_of (n : React.node ext) : list (string * handler) :=
  flat_map
    (fun kv =>
       match snd kv with
       | React.PExt (Handler h) => [ (fst kv, h) ]
       | _ => []
       end)
    (React.all_props n).

Definition get_handler (k : string) (n : React.node ext) : option handler :=
  match React.get_prop k n with
  | Some (React.PExt (Handler h)) => Some h
  | _ => None
  end.

Definition get_string (k : string) (n : React.node ext) : option string :=
  match React.get_prop k n with
  | Some (React.PStr s) => Some s
  | _ => None
  end.

End Row.

Arguments Handler {World} h.
Arguments Style {World} s.
Arguments currentHoverTime {World} p.
Arguments currentTime {World} p.
Arguments handleMouseEnter {World} p.
Arguments handleMouseLeave {World} p.
Arguments mutation {World} p.
Arguments onClickTimestamp {World} p.
Arguments startTimestampMs {World} p.
Arguments style {World} p.
Arguments hasOccurred {World} p.
Arguments isBeforeHover {World} p.
Arguments classFlags {World} p.
Arguments handlers_of {World} n.
Arguments get_handler {World} k n.
Arguments get_string {World} k n.

End Replay.

(** ** The default line of a stack frame *)

Module FrameLine.

(** Modelled from the spec: [defined] of the application utilities,
    which is not among the sources.  The badge is shown for a repeat
    count that is defined, so [defined] holds of every value but
    undefined. *)
Definition defined {A : Type} (item : option A) : bool :=
  negb (JS.is_undefined item).

Section Line.

(** The stack frame type of the application and the plural-aware
    translation function of its locale module. *)
Variable Frame : Type.
Variable tn : string -> string -> JS.number -> string.

Inductive ext : Type :=
| FrameValue (f : Frame).

Record Props : Type := {
  frame : Frame;
  nextFrame : option Frame;
  isHoverPreviewed : option bool;
  isExpanded : option bool;
  platform : string;
  timesRepeated : option JS.number;
  isUsedForGrouping : bool;
  leadsToApp : bool;
  (** [...props]: what is left for the expander *)
  props : list (string * React.prop ext)
}.

Definition optional_bool (b : option bool) : React.prop ext :=
  match b with
  | Some b => React.PBool b
  | None => React.PUndefined
  end.

Definition optional_frame (f : option Frame) : React.prop ext :=
  match f with
  | Some f => React.PExt (FrameValue f)
  | None => React.PUndefined
  end.

Definition renderRepeats (p : Props) : React.node ext :=
  if defined (timesRepeated p) && JS.gt (JS.ToNumber (timesRepeated p)) JS.zero
  then
    React.Elem "RepeatedFrames"
      [ ("title",
          React.PStr (tn "Frame repeated %s time" "Frame repeated %s times"
                         (JS.ToNumber (timesRepeated p)))) ]
      [ React.Elem "RepeatedContent" []
          [ React.Elem "StyledIconRefresh" [] [];
            React.Elem "span" [] [ React.child_of_number (timesRepeated p) ] ] ]
  else React.Null.

Definition Default (p : Props) : React.node ext :=
  React.Elem "Wrapper" [ ("className", React.PStr "title") ]
    [ React.Elem "VertCenterWrapper" []
        [ React.Elem "LeadHint"
            [ ("isExpanded", optional_bool (isExpanded p));
              ("nextFrame", optional_frame (nextFrame p));
              ("leadsToApp", React.PBool (leadsToApp p)) ]
            [];
          React.Elem "DefaultTitle"
            [ ("frame", React.PExt (FrameValue (frame p)));
              ("platform", React.PStr (platform p));
              ("isHoverPreviewed", optional_bool (isHoverPreviewed p));
              ("isUsedForGrouping", React.PBool (isUsedForGrouping p)) ]
            [];
          renderRepeats p ];
      React.Elem "Expander"
        ([ ("isExpanded", optional_bool (isExpanded p));
           ("isHoverPreviewed", optional_bool (isHoverPreviewed p));
           ("platform", React.PStr (platform p)) ] ++ props p)
        [] ].

End Line.

Arguments FrameValue {Frame} f.
Arguments frame {Frame} p.
Arguments nextFrame {Frame} p.
Arguments isHoverPreviewed {Frame} p.
Arguments isExpanded {Frame} p.
Arguments platform {Frame} p.
Arguments timesRepeated {Frame} p.
Arguments isUsedForGrouping {Frame} p.
Arguments leadsToApp {Frame} p.
Arguments props {Frame} p.

End FrameLine.

(** ** The key/value list and the event evidence panel *)

Module KeyValueList.

(** One row of the list's [data] prop, as the evidence panel builds it. *)
Record Item : Type := { subject : string; key : string; value : string }.

End KeyValueList.

Module Evidence.

Record EvidenceDisplay : Type := { name : string; value : string }.

(** The fields of an occurrence that the panel reads. *)
Record Occurrence : Type := {
  type : JS.number;
  evidenceDisplay : option (list EvidenceDisplay)
}.

(** The evidence entry of an issue type configuration. *)
Record EvidenceConfig : Type := { title : string; helpText : option string }.

Section Panel.

(** The issue category and issue type enumerations, and whatever an
    event carries besides its occurrence. *)
Variables IssueCategory IssueType EventData : Type.

Record Event : Type := {
  occurrence : option Occurrence;
  eventData : EventData
}.

Record Group : Type := {
  group_issueCategory : IssueCategory;
  group_issueType : IssueType
}.

Record IssueCategoryAndType : Type := {
  issueCategory : IssueCategory;
  issueType : option IssueType
}.

Record IssueTypeConfig : Type := { evidence : option EvidenceConfig }.

(** Imported collaborators: the profiling classifier of the event
    utilities and the two functions of the issue type registry. *)
Variable eventIsProfilingIssue : Event -> bool.
Variable getIssueCategoryAndTypeFromOccurrenceType :
  JS.number -> IssueCategoryAndType.
Variable getConfigForIssueType : IssueCategoryAndType -> IssueTypeConfig.

Inductive ext : Type :=
| EventValue (e : Event)
| Data (rows : list KeyValueList.Item).

Record EvidenceProps : Type := {
  event : Event;
  projectSlug : string;
  group : option Group
}.

(** [{issueCategory, issueType}] destructured from a group. *)
Definition of_group (g : Group) : IssueCategoryAndType :=
  {| issueCategory := group_issueCategory g;
     issueType := Some (group_issueType g) |}.

(** [group ?? getIssueCategoryAndTypeFromOccurrenceType(occurrence.type)] *)
Definition categoryAndType (p : EvidenceProps) (occ : Occurrence)
  : IssueCategoryAndType :=
  JS.nullish (option_map of_group (group p))
             (getIssueCategoryAndTypeFromOccurrenceType (type occ)).

(** [!evidenceDisplay?.length]: true of undefined and of the empty list. *)
Definition no_length {A : Type} (l : option (list A)) : bool :=
  match l with
  | None => true
  | Some l => Nat.eqb (List.length l) 0
  end.

Definition optional_string (s : option string) : React.prop ext :=
  match s with
  | Some s => React.PStr s
  | None => React.PUndefined
  end.

Definition row (item : EvidenceDisplay) : KeyValueList.Item :=
  {| KeyValueList.subject := name item;
     KeyValueList.key := name item;
     KeyValueList.value := value item |}.

Definition EventEvidence (p : EvidenceProps) : React.node ext :=
  match occurrence (event p) with
  | None => React.Null
  | Some occ =>
      if eventIsProfilingIssue (event p) then
        React.Elem "ProfileEventEvidence"
          [ ("event", React.PExt (EventValue (event p)));
            ("projectSlug", React.PStr (projectSlug p)) ]
          []
      else
        let config := evidence (getConfigForIssueType (categoryAndType p occ)) in
        let evidenceDisplay := evidenceDisplay occ in
        if no_length evidenceDisplay || JS.is_undefined config then React.Null
        else
          match config, evidenceDisplay with
          | Some config, Some evidenceDisplay =>
              React.Elem "EventDataSection"
                [ ("title", React.PStr (title config));
                  ("type", React.PStr "evidence");
                  ("help", optional_string (helpText config)) ]
                [ React.Elem "KeyValueList"
                    [ ("data", React.PExt (Data (map row evidenceDisplay)));
                      ("shouldSort", React.PBool false) ]
                    [] ]
          | _, _ => React.Null
          end
  end.

(** The rows handed to the key/value list of a rendered panel. *)
Definition rows_of (n : React.node ext) : option (list KeyValueList.Item) :=
  match React.find_all "KeyValueList" n with
  | [ kv ] =>
      match React.get_prop "data" kv with
      | Some (React.PExt (Data rows)) => Some rows
      | _ => None
      end
  | _ => None
  end.

End Panel.

Arguments occurrence {EventData} e.
Arguments eventData {EventData} e.
Arguments group_issueCategory {IssueCategory IssueType} g.
Arguments group_issueType {IssueCategory IssueType} g.
Arguments issueCategory {IssueCategory IssueType} i.
Arguments issueType {IssueCategory IssueType} i.
Arguments event {IssueCategory IssueType EventData} e.
Arguments projectSlug {IssueCategory IssueType EventData} e.
Arguments group {IssueCategory IssueType EventData} e.
Arguments EventValue {EventData} e.
Arguments Data {EventData} rows.
Arguments rows_of {EventData} n.

End Evidence.

(** ** The API calls page of the performance modules *)

Module Starfish.

Section Page.

(** The translation function of the locale module, and the module
    identifiers of the starfish types, of which the page names one. *)
Variable t : string -> string.
Variable ModuleName : Type.
Variable HTTP : ModuleName.

Inductive ext : Type :=
| ModuleNameValue (m : ModuleName).

Definition HTTPModule : React.node ext :=
  React.Elem "Layout.Page" []
    [ React.Elem "PageErrorProvider" []
        [ React.Elem "Layout.Header" []
            [ React.Elem "Layout.HeaderContent" []
                [ React.Elem "Layout.Title" [] [ React.Text (t "API Calls") ] ] ];
          React.Elem "Layout.Body" []
            [ React.Elem "Layout.Main" [ ("fullWidth", React.PBool true) ]
                [ React.Elem "PageErrorAlert" [] [];
                  React.Elem "PageFiltersContainer" []
                    [ React.Elem "SpansView"
                        [ ("moduleName", React.PExt (ModuleNameValue HTTP)) ]
                        [] ] ] ] ] ].

(** The tags of a tree, in document order. *)
Fixpoint tags (n : React.node ext) : list string :=
  match n with
  | React.Elem tag _ cs => tag :: flat_map tags cs
  | _ => []
  end.

End Page.

Arguments ModuleNameValue {ModuleName} m.
Arguments tags {ModuleName} n.

End Starfish.

(** ** The repository settings container *)

Module OrganizationRepositories.

(** Modelled from the spec: a data fetch as the container sees it, which
    is not among the sources: the list it holds now, and whether the
    fetch has resolved.  Before it resolves the list is empty. *)
Record Fetch (A : Type) : Type := { data : list A; resolved : bool }.

Arguments data {A} f.
Arguments resolved {A} f.

(** Modelled from the spec: a fetch that has not resolved yet. *)
Definition pending {A : Type} : Fetch A := {| data := []; resolved := false |}.

(** Modelled from the spec: a fetch resolved with the body of its
    response. *)
Definition resolve {A : Type} (body : list A) : Fetch A :=
  {| data := body; resolved := true |}.

Section Container.

Variables Repository Provider : Type.

(** Modelled from the spec: the two independent fetches of the
    container: the repositories and the providers of the organization. *)
Record State : Type := {
  itemList : Fetch Repository;
  providers : Fetch Provider
}.

(** Modelled from the spec: the answers of the API client, as the test
    of the container mocks them: the body of the repositories request
    and the providers of the configuration request. *)
Inductive Response : Type :=
| Repos (body : list Repository)
| Config (providers : list Provider).

(** Modelled from the spec: the container when first rendered: both
    requests are out, no answer has arrived. *)
Definition mount : State := {| itemList := pending; providers := pending |}.

(** Modelled from the spec: a response resolves the fetch it answers
    and leaves the other as it is. *)
Definition receive (s : State) (r : Response) : State :=
  match r with
  | Repos body => {| itemList := resolve body; providers := providers s |}
  | Config ps => {| itemList := itemList s; providers := resolve ps |}
  end.

Inductive ext : Type :=
| Repositories (l : list Repository)
| Providers (l : list Provider).

(** Modelled from the spec: the container renders a loading indicator
    until both fetches resolve, then the connection view over the lists,
    which explains itself when both are empty. *)
Definition OrganizationRepositoriesContainer (s : State) : React.node ext :=
  if resolved (itemList s) && resolved (providers s) then
    React.Elem "OrganizationRepositories"
      [ ("itemList", React.PExt (Repositories (data (itemList s))));
        ("providers", React.PExt (Providers (data (providers s)))) ]
      []
  else React.Elem "LoadingIndicator" [] [].

End Container.

Arguments itemList {Repository Provider} s.
Arguments providers {Repository Provider} s.
Arguments Repos {Repository Provider} body.
Arguments Config {Repository Provider} providers.
Arguments mount {Repository Provider}.
Arguments receive {Repository Provider} s r.
Arguments Repositories {Repository Provider} l.
Arguments Providers {Repository Provider} l.
Arguments OrganizationRepositoriesContainer {Repository Provider} s.

(** The mock responses of the container's test: an empty repository
    list and a configuration without providers. *)
Definition test_responses {Repository Provider : Type}
  : list (@Response Repository Provider) :=
  [ Repos []; Config [] ].

End OrganizationRepositories.

(** ** Sample inputs *)

Module Samples.

(** A caller whose world is the log of the calls it received. *)
Definition Log : Type := list (string * Replay.ReplayFrame).

Definition record_call (what : string) : Replay.callback Log :=
  fun frame log => (log ++ [ (what, frame) ])%list.

Definition sample_frame : Replay.ReplayFrame :=
  {| Replay.offsetMs := JS.of_Z 1500;
     Replay.timestampMs := JS.of_Z 1700000001500;
     Replay.message := Some "div#app > ul" |}.

Definition sample_mutation : Replay.Extraction :=
  {| Replay.html := "<ul><li>unclosed<p></ul>"; Replay.frame := sample_frame |}.

Definition sample_row (hover : option JS.number) (now : JS.number)
  : Replay.Props Log :=
  {| Replay.currentHoverTime := hover;
     Replay.currentTime := now;
     Replay.handleMouseEnter := record_call "handleMouseEnter";
     Replay.handleMouseLeave := record_call "handleMouseLeave";
     Replay.mutation := sample_mutation;
     Replay.onClickTimestamp := record_call "onClickTimestamp";
     Replay.startTimestampMs := JS.of_Z 1700000000000;
     Replay.style := [ ("height", "80px") ] |}.

Definition sample_details (f : Replay.ReplayFrame) : Replay.FrameDetails :=
  {| Replay.color := "purple300";
     Replay.title := "DOM Mutation";
     Replay.type := "ui" |}.

(** A stand-in beautifier: it leaves the text as it is. *)
Definition sample_beautify (s : string) (o : Replay.HTMLBeautifyOptions) : string := s.

(** A line of a stack trace; the frame itself is only handed on. *)
Definition sample_line (timesRepeated : option JS.number)
  : FrameLine.Props string :=
  {| FrameLine.frame := "frame#3";
     FrameLine.nextFrame := Some "frame#4";
     FrameLine.isHoverPreviewed := None;
     FrameLine.isExpanded := Some false;
     FrameLine.platform := "python";
     FrameLine.timesRepeated := timesRepeated;
     FrameLine.isUsedForGrouping := true;
     FrameLine.leadsToApp := false;
     FrameLine.props := [ ("isExpandable", React.PBool true) ] |}.

Definition sample_tn (singular plural : string) (n : JS.number) : string :=
  if SFeqb n (JS.of_Z 1) then singular else plural.

(** An issue type registry with one entry.  Categories and types are
    their names; besides its occurrence an event carries the name of
    its evidence template, which the classifier reads. *)
Definition sample_classifier (e : Evidence.Event string) : bool :=
  String.eqb (Evidence.eventData e) "profile".

Definition sample_category_and_type (type : JS.number)
  : Evidence.IssueCategoryAndType string string :=
  {| Evidence.issueCategory :=
       if SFleb (JS.of_Z 2000) type then "profile" else "performance";
     Evidence.issueType := None |}.

Definition sample_registry (k : Evidence.IssueCategoryAndType string string)
  : Evidence.IssueTypeConfig :=
  {| Evidence.evidence :=
       if String.eqb (Evidence.issueCategory k) "performance"
       then Some {| Evidence.title := "Span Evidence";
                    Evidence.helpText := Some "What was slow" |}
       else None |}.

Definition sample_evidence : list Evidence.EvidenceDisplay :=
  [ {| Evidence.name := "Transaction"; Evidence.value := "/checkout" |};
    {| Evidence.name := "Offending Spans"; Evidence.value := "db - SELECT" |};
    {| Evidence.name := "Transaction"; Evidence.value := "/cart" |} ].

Definition sample_event (template : string) (type : Z)
  (evidence : option (list Evidence.EvidenceDisplay)) : Evidence.Event string :=
  {| Evidence.occurrence :=
       Some {| Evidence.type := JS.of_Z type;
               Evidence.evidenceDisplay := evidence |};
     Evidence.eventData := template |}.

Definition sample_panel (e : Evidence.Event string)
  (g : option (Evidence.Group string string))
  : Evidence.EvidenceProps string string string :=
  {| Evidence.event := e; Evidence.projectSlug := "project-slug";
     Evidence.group := g |}.

Definition sample_EventEvidence
  : Evidence.EvidenceProps string string string -> React.node (Evidence.ext string) :=
  Evidence.EventEvidence string string string
    sample_classifier sample_category_and_type sample_registry.

(** A profiling event whose occurrence lists no evidence. *)
Definition profiling_without_evidence
  : Evidence.EvidenceProps string string string :=
  sample_panel (sample_event "profile" 2001 (Some [])) None.

End Samples.

(** * Theorems *)

(** ** Comparisons of JavaScript numbers *)

Lemma SFcompare_antisym (x y : spec_float) :
  SFcompare y x = option_map CompOpp (SFcompare x y).
Proof.
  destruct x as [sx | sx | | sx mx ex], y as [sy | sy | | sy my ey];
    try destruct sx; try destruct sy; try reflexivity.
  - cbn. rewrite (Z.compare_antisym ey ex).
    destruct (ey ?= ex)%Z; cbn; try reflexivity.
    now rewrite (Pos.compare_cont_antisym mx my Eq).
  - cbn. rewrite (Z.compare_antisym ey ex).
    destruct (ey ?= ex)%Z; cbn; try reflexivity.
    now rewrite (Pos.compare_cont_antisym mx my Eq).
Qed.

(** [x >= y] is the IEEE comparison [y <= x]. *)
Lemma ge_SFleb (x y : JS.number) : JS.ge x y = SFleb y x.
Proof.
  unfold JS.ge, JS.IsLessThan, SFleb. rewrite (SFcompare_antisym x y).
  destruct (SFcompare x y) as [[ | | ] | ]; reflexivity.
Qed.

(** [x > y] is the IEEE comparison [y < x]. *)
Lemma gt_SFltb (x y : JS.number) : JS.gt x y = SFltb y x.
Proof.
  unfold JS.gt, JS.IsLessThan, SFltb.
  destruct (SFcompare y x) as [[ | | ] | ]; reflexivity.
Qed.

Lemma ge_gt_or_eq (x y : JS.number) :
  JS.ge x y = JS.gt x y || SFeqb x y.
Proof.
  unfold JS.ge, JS.gt, JS.IsLessThan, SFeqb. rewrite (SFcompare_antisym x y).
  destruct (SFcompare x y) as [[ | | ] | ]; reflexivity.
Qed.

Example ge_later : JS.ge (JS.of_Z 1501) (JS.of_Z 1500) = true.
Proof. reflexivity. Qed.

Example ge_same : JS.ge (JS.of_Z 1500) (JS.of_Z 1500) = true.
Proof. reflexivity. Qed.

Example ge_earlier : JS.ge (JS.of_Z 1499) (JS.of_Z 1500) = false.
Proof. reflexivity. Qed.

Example ge_NaN_left : JS.ge JS.NaN (JS.of_Z 1500) = false.
Proof. reflexivity. Qed.

Example ge_zeros : JS.ge (S754_zero true) JS.zero = true.
Proof. reflexivity. Qed.

Example gt_zeros : JS.gt (S754_zero false) (S754_zero true) = false.
Proof. reflexivity. Qed.

(** ** The DOM mutation row *)

(** The class attribute built from the row's four flags contains each
    class exactly when its flag is set. *)
Lemma has_class_row_flags (b1 b2 b3 b4 : bool) :
  let className :=
    ClassNames.classNames
      [ ("beforeCurrentTime", b1); ("afterCurrentTime", b2);
        ("beforeHoverTime", b3); ("afterHoverTime", b4) ] in
  ClassNames.has_class "beforeCurrentTime" className = b1 /\
  ClassNames.has_class "afterCurrentTime" className = b2 /\
  ClassNames.has_class "beforeHoverTime" className = b3 /\
  ClassNames.has_class "afterHoverTime" className = b4.
Proof.
  destruct b1, b2, b3, b4; vm_compute; repeat split.
Qed.

Section RowFacts.

Variable World : Type.
Variable getFrameDetails : Replay.ReplayFrame -> Replay.FrameDetails.
Variable beautify_html : string -> Replay.HTMLBeautifyOptions -> string.

Local Abbreviation Row := (Replay.DomMutationRow World getFrameDetails beautify_html).

Lemma row_className (p : Replay.Props World) :
  Replay.get_string "className" (Row p)
  = Some (ClassNames.classNames (Replay.classFlags p)).
Proof. reflexivity. Qed.

(** C1.  For every current time and frame offset, [hasOccurred] holds
    exactly when [currentTime >= frame.offsetMs]; the row carries the
    class beforeCurrentTime exactly when [hasOccurred] holds and the
    class afterCurrentTime exactly when it does not, so it carries one
    of the two and never both. *)
Theorem DomMutationRow_current_time_flags (p : Replay.Props World) :
  let offset := Replay.offsetMs (Replay.frame (Replay.mutation p)) in
  (Replay.hasOccurred p = true <-> JS.ge (Replay.currentTime p) offset = true) /\
  Replay.hasOccurred p = SFleb offset (Replay.currentTime p) /\
  React.assoc "beforeCurrentTime" (Replay.classFlags p)
    = Some (Replay.hasOccurred p) /\
  React.assoc "afterCurrentTime" (Replay.classFlags p)
    = Some (negb (Replay.hasOccurred p)) /\
  exists className,
    Replay.get_string "className" (Row p) = Some className /\
    ClassNames.has_class "beforeCurrentTime" className = Replay.hasOccurred p /\
    ClassNames.has_class "afterCurrentTime" className
      = negb (Replay.hasOccurred p) /\
    xorb (ClassNames.has_class "beforeCurrentTime" className)
         (ClassNames.has_class "afterCurrentTime" className) = true.
Proof.
  cbv zeta. split; [reflexivity | ].
  split; [apply ge_SFleb | ].
  split; [reflexivity | ]. split; [reflexivity | ].
  exists (ClassNames.classNames (Replay.classFlags p)).
  split; [apply row_className | ].
  unfold Replay.classFlags.
  destruct (has_class_row_flags
              (Replay.hasOccurred p) (negb (Replay.hasOccurred p))
              (negb (JS.is_undefined (Replay.currentHoverTime p))
               && Replay.isBeforeHover p)
              (negb (JS.is_undefined (Replay.currentHoverTime p))
               && negb (Replay.isBeforeHover p)))
    as (Hb & Ha & _ & _).
  rewrite Hb, Ha. repeat split.
  now destruct (Replay.hasOccurred p).
Qed.

(** C3.  When [currentHoverTime] is undefined, [isBeforeHover] is true
    and the afterHoverTime flag is false, so the row does not carry the
    class afterHoverTime, whatever the current time and the frame
    offset are. *)
Theorem DomMutationRow_without_hover (p : Replay.Props World) :
  Replay.currentHoverTime p = None ->
  Replay.isBeforeHover p = true /\
  React.assoc "afterHoverTime" (Replay.classFlags p) = Some false /\
  exists className,
    Replay.get_string "className" (Row p) = Some className /\
    ClassNames.has_class "afterHoverTime" className = false.
Proof.
  intros Hhover.
  assert (Hflag : negb (JS.is_undefined (Replay.currentHoverTime p))
                  && negb (Replay.isBeforeHover p) = false)
    by (rewrite Hhover; reflexivity).
  split; [unfold Replay.isBeforeHover; rewrite Hhover; reflexivity | ].
  split; [cbn; now rewrite Hflag | ].
  exists (ClassNames.classNames (Replay.classFlags p)).
  split; [apply row_className | ].
  unfold Replay.classFlags.
  destruct (has_class_row_flags
              (Replay.hasOccurred p) (negb (Replay.hasOccurred p))
              (negb (JS.is_undefined (Replay.currentHoverTime p))
               && Replay.isBeforeHover p)
              (negb (JS.is_undefined (Replay.currentHoverTime p))
               && negb (Replay.isBeforeHover p)))
    as (_ & _ & _ & Hafter).
  now rewrite Hafter.
Qed.

(** C6.  The row's mouse-enter handler calls the caller's
    [handleMouseEnter] with the mutation's frame, its mouse-leave
    handler calls [handleMouseLeave] with the same frame, and the click
    handler of the timestamp button calls [onClickTimestamp] with the
    frame, once it has stopped the propagation of the click.  These are
    the only handlers of the tree, and the world changes through the
    caller's callbacks alone: the row has no state of its own. *)
Theorem DomMutationRow_handlers
  (p : Replay.Props World) (ev : Replay.SyntheticEvent) (w : World) :
  let frame := Replay.frame (Replay.mutation p) in
  (exists h, Replay.get_handler "onMouseEnter" (Row p) = Some h /\
             h ev w = (ev, Replay.handleMouseEnter p frame w)) /\
  (exists h, Replay.get_handler "onMouseLeave" (Row p) = Some h /\
             h ev w = (ev, Replay.handleMouseLeave p frame w)) /\
  (exists button h,
      React.find_all "TimestampButton" (Row p) = [ button ] /\
      Replay.get_handler "onClick" button = Some h /\
      h ev w = (Replay.stopPropagation ev, Replay.onClickTimestamp p frame w)) /\
  map fst (Replay.handlers_of (Row p))
    = [ "onMouseEnter"; "onMouseLeave"; "onClick" ].
Proof.
  cbv zeta. split; [eexists; split; reflexivity | ].
  split; [eexists; split; reflexivity | ].
  split; [ | reflexivity].
  eexists. eexists. split; [reflexivity | ]. split; reflexivity.
Qed.

(** C7.  For every mutation record the row shows, as the one child of
    its one code snippet, the text that the HTML beautifier returns for
    the captured snapshot with indent size 2.  The row has no branch on
    the snapshot: every string, well-formed HTML or not, goes through
    the beautifier and its result is displayed. *)
Theorem DomMutationRow_beautified_html (p : Replay.Props World) :
  React.find_all "CodeSnippet" (Row p)
  = [ React.Elem "CodeSnippet"
        [ ("language", React.PStr "html"); ("hideCopyButton", React.PBool true) ]
        [ React.Text
            (beautify_html (Replay.html (Replay.mutation p))
                           {| Replay.indent_size := 2 |}) ] ].
Proof. reflexivity. Qed.

End RowFacts.

Lemma DomMutationRow_without_hover_witness :
  Replay.currentHoverTime (Samples.sample_row None (JS.of_Z 900)) = None /\
  Replay.isBeforeHover (Samples.sample_row None (JS.of_Z 900)) = true.
Proof.
  split; [reflexivity | ].
  apply (DomMutationRow_without_hover Samples.Log Samples.sample_details
           Samples.sample_beautify (Samples.sample_row None (JS.of_Z 900))).
  reflexivity.
Defined.

Example row_before_time :
  Replay.get_string "className"
    (Replay.DomMutationRow Samples.Log Samples.sample_details
       Samples.sample_beautify (Samples.sample_row None (JS.of_Z 900)))
  = Some "afterCurrentTime".
Proof. reflexivity. Qed.

Example row_hovered :
  Replay.get_string "className"
    (Replay.DomMutationRow Samples.Log Samples.sample_details
       Samples.sample_beautify
       (Samples.sample_row (Some (JS.of_Z 1200)) (JS.of_Z 1500)))
  = Some "beforeCurrentTime afterHoverTime".
Proof. reflexivity. Qed.

Example row_at_NaN :
  Replay.get_string "className"
    (Replay.DomMutationRow Samples.Log Samples.sample_details
       Samples.sample_beautify
       (Samples.sample_row (Some JS.NaN) JS.NaN))
  = Some "afterCurrentTime afterHoverTime".
Proof. reflexivity. Qed.

Example row_calls :
  map (fun kh => snd (snd kh {| Replay.propagationStopped := false |} []))
    (Replay.handlers_of
       (Replay.DomMutationRow Samples.Log Samples.sample_details
          Samples.sample_beautify (Samples.sample_row None (JS.of_Z 900))))
  = [ [ ("handleMouseEnter", Samples.sample_frame) ];
      [ ("handleMouseLeave", Samples.sample_frame) ];
      [ ("onClickTimestamp", Samples.sample_frame) ] ].
Proof. reflexivity. Qed.

(** ** The default line of a stack frame *)

Section LineFacts.

Variable Frame : Type.
Variable tn : string -> string -> JS.number -> string.

Local Abbreviation Default := (FrameLine.Default Frame tn).
Local Abbreviation renderRepeats := (FrameLine.renderRepeats Frame tn).

(** The badge is the only part of the line that may hold the tag. *)
Lemma Default_badge_from_renderRepeats (p : FrameLine.Props Frame) :
  React.contains_tag "RepeatedFrames" (Default p)
  = React.contains_tag "RepeatedFrames" (renderRepeats p).
Proof.
  unfold React.contains_tag. cbn. now rewrite !app_nil_r.
Qed.

Lemma renderRepeats_badge (p : FrameLine.Props Frame) :
  React.contains_tag "RepeatedFrames" (renderRepeats p)
  = match FrameLine.timesRepeated p with
    | Some n => SFltb JS.zero n
    | None => false
    end.
Proof.
  unfold FrameLine.renderRepeats, FrameLine.defined.
  destruct (FrameLine.timesRepeated p) as [n | ]; cbn; [ | reflexivity].
  rewrite gt_SFltb. now destruct (SFltb JS.zero n).
Qed.

(** A number that is zero or below zero is not above zero. *)
Lemma not_above_zero (n : JS.number) :
  SFeqb n JS.zero = true \/ SFltb n JS.zero = true -> SFltb JS.zero n = false.
Proof.
  unfold SFeqb, SFltb. rewrite (SFcompare_antisym JS.zero n).
  destruct (SFcompare JS.zero n) as [[ | | ] | ]; cbn; intuition congruence.
Qed.

(** C4.  The line holds the repeated-frames badge exactly when
    [timesRepeated] is defined and strictly greater than zero; it holds
    no badge when [timesRepeated] is undefined, is zero, or is
    negative. *)
Theorem Default_repeated_badge (p : FrameLine.Props Frame) :
  (React.contains_tag "RepeatedFrames" (Default p) = true <->
   exists n, FrameLine.timesRepeated p = Some n /\ SFltb JS.zero n = true) /\
  (FrameLine.timesRepeated p = None ->
   React.contains_tag "RepeatedFrames" (Default p) = false) /\
  (forall n, FrameLine.timesRepeated p = Some n ->
             SFeqb n JS.zero = true \/ SFltb n JS.zero = true ->
             React.contains_tag "RepeatedFrames" (Default p) = false).
Proof.
  rewrite Default_badge_from_renderRepeats, renderRepeats_badge.
  split; [ | split].
  - split.
    + destruct (FrameLine.timesRepeated p) as [n | ]; [ | discriminate].
      intros H. now exists n.
    + intros (n & Hn & Hpos). now rewrite Hn.
  - now intros ->.
  - intros n -> Hn. now apply not_above_zero.
Qed.

End LineFacts.

Example line_repeated_twice :
  FrameLine.renderRepeats string Samples.sample_tn
    (Samples.sample_line (Some (JS.of_Z 2)))
  = React.Elem "RepeatedFrames"
      [ ("title", React.PStr "Frame repeated %s times") ]
      [ React.Elem "RepeatedContent" []
          [ React.Elem "StyledIconRefresh" [] [];
            React.Elem "span" [] [ React.Number (JS.of_Z 2) ] ] ].
Proof. reflexivity. Qed.

Example line_not_repeated :
  map (fun x => FrameLine.renderRepeats string Samples.sample_tn
                  (Samples.sample_line x))
    [ None; Some JS.zero; Some (S754_zero true); Some (JS.of_Z (-3));
      Some JS.NaN ]
  = [ React.Null; React.Null; React.Null; React.Null; React.Null ].
Proof. reflexivity. Qed.

(** ** The event evidence panel *)

Section PanelFacts.

Variables IssueCategory IssueType EventData : Type.
Variable eventIsProfilingIssue : Evidence.Event EventData -> bool.
Variable getIssueCategoryAndTypeFromOccurrenceType :
  JS.number -> Evidence.IssueCategoryAndType IssueCategory IssueType.
Variable getConfigForIssueType :
  Evidence.IssueCategoryAndType IssueCategory IssueType -> Evidence.IssueTypeConfig.

Local Abbreviation EventEvidence :=
  (Evidence.EventEvidence IssueCategory IssueType EventData
     eventIsProfilingIssue getIssueCategoryAndTypeFromOccurrenceType
     getConfigForIssueType).
Local Abbreviation categoryAndType :=
  (Evidence.categoryAndType IssueCategory IssueType EventData
     getIssueCategoryAndTypeFromOccurrenceType).
Local Abbreviation Props := (Evidence.EvidenceProps IssueCategory IssueType EventData).

Lemma no_length_false {A : Type} (l : option (list A)) :
  Evidence.no_length l = false <-> exists x xs, l = Some (x :: xs).
Proof.
  destruct l as [[ | x xs] | ]; cbn; split;
    try discriminate; try (intros (? & ? & ?); discriminate).
  - intros _. now exists x, xs.
  - reflexivity.
Qed.

Lemma rows_in_order (items : list Evidence.EvidenceDisplay) :
  List.length (map Evidence.row items) = List.length items /\
  map KeyValueList.subject (map Evidence.row items) = map Evidence.name items /\
  map KeyValueList.key (map Evidence.row items) = map Evidence.name items /\
  map KeyValueList.value (map Evidence.row items) = map Evidence.value items.
Proof.
  rewrite length_map, !map_map. cbn. repeat split.
Qed.

(** C2, amended.  The panel renders nothing when the event has no
    occurrence.  For an event with an occurrence that is not a
    profiling issue, it renders nothing when the resolved evidence
    configuration is absent or the evidence list is absent or empty;
    when both are present and the list is not empty, it renders one
    data section holding one key/value list whose rows are the evidence
    items, one row per item in the order of the list, subject and key
    being the item's name and value its value, with sorting off. *)
Theorem EventEvidence_rows (p : Props) :
  (Evidence.occurrence (Evidence.event p) = None ->
   EventEvidence p = React.Null) /\
  (forall occ,
      Evidence.occurrence (Evidence.event p) = Some occ ->
      eventIsProfilingIssue (Evidence.event p) = false ->
      Evidence.evidence (getConfigForIssueType (categoryAndType p occ)) = None \/
      Evidence.no_length (Evidence.evidenceDisplay occ) = true ->
      EventEvidence p = React.Null) /\
  (forall occ config items,
      Evidence.occurrence (Evidence.event p) = Some occ ->
      eventIsProfilingIssue (Evidence.event p) = false ->
      Evidence.evidence (getConfigForIssueType (categoryAndType p occ))
        = Some config ->
      Evidence.evidenceDisplay occ = Some items ->
      items <> [] ->
      EventEvidence p
      = React.Elem "EventDataSection"
          [ ("title", React.PStr (Evidence.title config));
            ("type", React.PStr "evidence");
            ("help", Evidence.optional_string EventData (Evidence.helpText config)) ]
          [ React.Elem "KeyValueList"
              [ ("data", React.PExt (Evidence.Data (map Evidence.row items)));
                ("shouldSort", React.PBool false) ]
              [] ] /\
      exists rows,
        Evidence.rows_of (EventEvidence p) = Some rows /\
        List.length rows = List.length items /\
        map KeyValueList.subject rows = map Evidence.name items /\
        map KeyValueList.key rows = map Evidence.name items /\
        map KeyValueList.value rows = map Evidence.value items).
Proof.
  unfold Evidence.EventEvidence. split; [ | split].
  - now intros ->.
  - intros occ -> -> [Hconfig | Hlist].
    + rewrite Hconfig. cbn. now rewrite orb_true_r.
    + now rewrite Hlist.
  - intros occ config items -> -> Hconfig Hitems Hne.
    rewrite Hconfig, Hitems.
    destruct items as [ | item items]; [congruence | ].
    cbn -[map]. split; [reflexivity | ].
    exists (map Evidence.row (item :: items)).
    split; [reflexivity | apply rows_in_order].
Qed.

(** C5.  For an event with an occurrence that is classified as a
    profiling issue, the panel is the profile evidence renderer, given
    the event and the project slug; the issue type registry plays no
    part, and no key/value list is built. *)
Theorem EventEvidence_profiling (p : Props) (occ : Evidence.Occurrence) :
  Evidence.occurrence (Evidence.event p) = Some occ ->
  eventIsProfilingIssue (Evidence.event p) = true ->
  EventEvidence p
  = React.Elem "ProfileEventEvidence"
      [ ("event", React.PExt (Evidence.EventValue (Evidence.event p)));
        ("projectSlug", React.PStr (Evidence.projectSlug p)) ]
      [] /\
  React.contains_tag "KeyValueList" (EventEvidence p) = false.
Proof.
  intros Hocc Hprofiling. unfold Evidence.EventEvidence.
  rewrite Hocc, Hprofiling. split; reflexivity.
Qed.

End PanelFacts.

Section LookupFacts.

Variables IssueCategory IssueType EventData : Type.
Variable eventIsProfilingIssue : Evidence.Event EventData -> bool.

Local Abbreviation Key := (Evidence.IssueCategoryAndType IssueCategory IssueType).
Local Abbreviation Panel :=
  (Evidence.EventEvidence IssueCategory IssueType EventData eventIsProfilingIssue).

(** C10.  When a group is given, the category and type looked up in the
    registry are the group's: for an event that is not a profiling
    issue and lists evidence, the panel is the data section titled and
    explained by the registry's entry for the group's category and
    type, and nothing when that entry has no evidence configuration,
    whatever is derived from the occurrence type.  When no group is
    given, the entry is the one for the category and type derived from
    the occurrence type.  In both cases the panel changes with the
    registry through that one entry only. *)
Theorem EventEvidence_lookup_key
  (derive derive' : JS.number -> Key)
  (registry registry' : Key -> Evidence.IssueTypeConfig)
  (p : Evidence.EvidenceProps IssueCategory IssueType EventData) :
  (forall g occ,
      Evidence.group p = Some g ->
      Evidence.categoryAndType IssueCategory IssueType EventData derive p occ
      = {| Evidence.issueCategory := Evidence.group_issueCategory g;
           Evidence.issueType := Some (Evidence.group_issueType g) |}) /\
  (forall g,
      Evidence.group p = Some g ->
      registry (Evidence.of_group IssueCategory IssueType g)
      = registry' (Evidence.of_group IssueCategory IssueType g) ->
      Panel derive registry p = Panel derive' registry' p) /\
  (forall occ,
      Evidence.group p = None ->
      Evidence.categoryAndType IssueCategory IssueType EventData derive p occ
      = derive (Evidence.type occ)) /\
  (forall occ,
      Evidence.group p = None ->
      Evidence.occurrence (Evidence.event p) = Some occ ->
      registry (derive (Evidence.type occ)) = registry' (derive (Evidence.type occ)) ->
      Panel derive registry p = Panel derive registry' p) /\
  (forall g occ item items,
      Evidence.group p = Some g ->
      Evidence.occurrence (Evidence.event p) = Some occ ->
      eventIsProfilingIssue (Evidence.event p) = false ->
      Evidence.evidenceDisplay occ = Some (item :: items) ->
      Panel derive registry p
      = match
          Evidence.evidence
            (registry
               {| Evidence.issueCategory := Evidence.group_issueCategory g;
                  Evidence.issueType := Some (Evidence.group_issueType g) |})
        with
        | Some config =>
            React.Elem "EventDataSection"
              [ ("title", React.PStr (Evidence.title config));
                ("type", React.PStr "evidence");
                ("help",
                  Evidence.optional_string EventData (Evidence.helpText config)) ]
              [ React.Elem "KeyValueList"
                  [ ("data",
                      React.PExt (Evidence.Data (map Evidence.row (item :: items))));
                    ("shouldSort", React.PBool false) ]
                  [] ]
        | None => React.Null
        end) /\
  (forall occ item items,
      Evidence.group p = None ->
      Evidence.occurrence (Evidence.event p) = Some occ ->
      eventIsProfilingIssue (Evidence.event p) = false ->
      Evidence.evidenceDisplay occ = Some (item :: items) ->
      Panel derive registry p
      = match Evidence.evidence (registry (derive (Evidence.type occ))) with
        | Some config =>
            React.Elem "EventDataSection"
              [ ("title", React.PStr (Evidence.title config));
                ("type", React.PStr "evidence");
                ("help",
                  Evidence.optional_string EventData (Evidence.helpText config)) ]
              [ React.Elem "KeyValueList"
                  [ ("data",
                      React.PExt (Evidence.Data (map Evidence.row (item :: items))));
                    ("shouldSort", React.PBool false) ]
                  [] ]
        | None => React.Null
        end).
Proof.
  unfold Evidence.EventEvidence, Evidence.categoryAndType.
  split; [ | split; [ | split; [ | split; [ | split]]]].
  - now intros g occ ->.
  - intros g -> Hentry. cbn. now rewrite Hentry.
  - now intros occ ->.
  - intros occ -> -> Hentry. cbn. now rewrite Hentry.
  - intros g occ item items -> -> -> ->. cbn -[map].
    now destruct (Evidence.evidence _).
  - intros occ item items -> -> -> ->. cbn -[map].
    now destruct (Evidence.evidence _).
Qed.

End LookupFacts.

Lemma EventEvidence_rows_witness :
  Samples.sample_EventEvidence
    (Samples.sample_panel
       (Samples.sample_event "span" 1001 (Some Samples.sample_evidence)) None)
  = React.Elem "EventDataSection"
      [ ("title", React.PStr "Span Evidence");
        ("type", React.PStr "evidence");
        ("help", React.PStr "What was slow") ]
      [ React.Elem "KeyValueList"
          [ ("data",
              React.PExt (Evidence.Data
                [ {| KeyValueList.subject := "Transaction";
                     KeyValueList.key := "Transaction";
                     KeyValueList.value := "/checkout" |};
                  {| KeyValueList.subject := "Offending Spans";
                     KeyValueList.key := "Offending Spans";
                     KeyValueList.value := "db - SELECT" |};
                  {| KeyValueList.subject := "Transaction";
                     KeyValueList.key := "Transaction";
                     KeyValueList.value := "/cart" |} ]));
            ("shouldSort", React.PBool false) ]
          [] ].
Proof.
  refine (proj1 (proj2 (proj2
    (EventEvidence_rows string string string Samples.sample_classifier
       Samples.sample_category_and_type Samples.sample_registry
       (Samples.sample_panel
          (Samples.sample_event "span" 1001 (Some Samples.sample_evidence)) None)))
    {| Evidence.type := JS.of_Z 1001;
       Evidence.evidenceDisplay := Some Samples.sample_evidence |}
    {| Evidence.title := "Span Evidence";
       Evidence.helpText := Some "What was slow" |}
    Samples.sample_evidence _ _ _ _ _)); try reflexivity.
  discriminate.
Defined.

(** The claim as stated fails on a profiling event: its evidence list
    is empty, and the panel is the profile evidence renderer, not
    nothing. *)
Lemma EventEvidence_profiling_not_nothing :
  (exists occ,
      Evidence.occurrence (Evidence.event Samples.profiling_without_evidence)
      = Some occ /\
      Evidence.evidenceDisplay occ = Some [] /\
      Evidence.evidence
        (Samples.sample_registry
           (Evidence.categoryAndType string string string
              Samples.sample_category_and_type
              Samples.profiling_without_evidence occ)) = None) /\
  Samples.sample_EventEvidence Samples.profiling_without_evidence
  = React.Elem "ProfileEventEvidence"
      [ ("event",
          React.PExt (Evidence.EventValue
            (Evidence.event Samples.profiling_without_evidence)));
        ("projectSlug", React.PStr "project-slug") ]
      [] /\
  Samples.sample_EventEvidence Samples.profiling_without_evidence <> React.Null.
Proof.
  split; [ | split; [reflexivity | discriminate]].
  eexists. split; [reflexivity | ]. split; reflexivity.
Qed.

Lemma EventEvidence_profiling_witness :
  Samples.sample_EventEvidence
    (Samples.sample_panel
       (Samples.sample_event "profile" 2001 (Some Samples.sample_evidence)) None)
  = React.Elem "ProfileEventEvidence"
      [ ("event",
          React.PExt (Evidence.EventValue
            (Samples.sample_event "profile" 2001 (Some Samples.sample_evidence))));
        ("projectSlug", React.PStr "project-slug") ]
      [].
Proof.
  refine (proj1
    (EventEvidence_profiling string string string Samples.sample_classifier
       Samples.sample_category_and_type Samples.sample_registry
       (Samples.sample_panel
          (Samples.sample_event "profile" 2001 (Some Samples.sample_evidence)) None)
       {| Evidence.type := JS.of_Z 2001;
          Evidence.evidenceDisplay := Some Samples.sample_evidence |} _ _));
    reflexivity.
Defined.

(** With a performance group, an occurrence type that derives to the
    profile category, for which the registry has no evidence
    configuration, still gets the data section of the performance
    entry. *)
Lemma EventEvidence_lookup_key_witness :
  Evidence.evidence
    (Samples.sample_registry (Samples.sample_category_and_type (JS.of_Z 2001)))
  = None /\
  Samples.sample_EventEvidence
    (Samples.sample_panel
       (Samples.sample_event "span" 2001 (Some Samples.sample_evidence))
       (Some {| Evidence.group_issueCategory := "performance";
                Evidence.group_issueType := "performance_slow_db_query" |}))
  = React.Elem "EventDataSection"
      [ ("title", React.PStr "Span Evidence");
        ("type", React.PStr "evidence");
        ("help", React.PStr "What was slow") ]
      [ React.Elem "KeyValueList"
          [ ("data",
              React.PExt (Evidence.Data (map Evidence.row Samples.sample_evidence)));
            ("shouldSort", React.PBool false) ]
          [] ].
Proof.
  split; [reflexivity | ].
  refine (proj1 (proj2 (proj2 (proj2 (proj2
    (EventEvidence_lookup_key string string string Samples.sample_classifier
       Samples.sample_category_and_type Samples.sample_category_and_type
       Samples.sample_registry Samples.sample_registry
       (Samples.sample_panel
          (Samples.sample_event "span" 2001 (Some Samples.sample_evidence))
          (Some {| Evidence.group_issueCategory := "performance";
                   Evidence.group_issueType := "performance_slow_db_query" |})))))))
    {| Evidence.group_issueCategory := "performance";
       Evidence.group_issueType := "performance_slow_db_query" |}
    {| Evidence.type := JS.of_Z 2001;
       Evidence.evidenceDisplay := Some Samples.sample_evidence |}
    {| Evidence.name := "Transaction"; Evidence.value := "/checkout" |}
    [ {| Evidence.name := "Offending Spans"; Evidence.value := "db - SELECT" |};
      {| Evidence.name := "Transaction"; Evidence.value := "/cart" |} ]
    _ _ _ _); reflexivity.
Defined.

Example panel_without_occurrence :
  Samples.sample_EventEvidence
    (Samples.sample_panel
       {| Evidence.occurrence := None; Evidence.eventData := "span" |} None)
  = React.Null.
Proof. reflexivity. Qed.

Example panel_without_config :
  Samples.sample_EventEvidence
    (Samples.sample_panel
       (Samples.sample_event "span" 2001 (Some Samples.sample_evidence)) None)
  = React.Null.
Proof. reflexivity. Qed.

Example panel_with_group_config :
  Evidence.rows_of
    (Samples.sample_EventEvidence
       (Samples.sample_panel
          (Samples.sample_event "span" 2001 (Some Samples.sample_evidence))
          (Some {| Evidence.group_issueCategory := "performance";
                   Evidence.group_issueType := "performance_slow_db_query" |})))
  = Some (map Evidence.row Samples.sample_evidence).
Proof. reflexivity. Qed.

Example panel_without_evidence :
  map (fun evidence =>
         Samples.sample_EventEvidence
           (Samples.sample_panel (Samples.sample_event "span" 1001 evidence) None))
    [ None; Some [] ]
  = [ React.Null; React.Null ].
Proof. reflexivity. Qed.

Lemma Default_repeated_badge_witness :
  React.contains_tag "RepeatedFrames"
    (FrameLine.Default string Samples.sample_tn
       (Samples.sample_line (Some (JS.of_Z 2)))) = true /\
  React.contains_tag "RepeatedFrames"
    (FrameLine.Default string Samples.sample_tn
       (Samples.sample_line (Some (JS.of_Z (-3))))) = false /\
  React.contains_tag "RepeatedFrames"
    (FrameLine.Default string Samples.sample_tn (Samples.sample_line None)) = false.
Proof.
  split; [ | split].
  - apply (proj1 (Default_repeated_badge string Samples.sample_tn
                    (Samples.sample_line (Some (JS.of_Z 2))))).
    exists (JS.of_Z 2). split; reflexivity.
  - apply (proj2 (proj2 (Default_repeated_badge string Samples.sample_tn
                           (Samples.sample_line (Some (JS.of_Z (-3))))))
             (JS.of_Z (-3))); [reflexivity | right; reflexivity].
  - apply (proj1 (proj2 (Default_repeated_badge string Samples.sample_tn
                           (Samples.sample_line None)))).
    reflexivity.
Defined.

(** ** The API calls page *)

Section PageFacts.

Variable t : string -> string.
Variable ModuleName : Type.
Variable HTTP : ModuleName.

Local Abbreviation HTTPModule := (Starfish.HTTPModule t ModuleName HTTP).

(** C8.  The page has no props.  Its tree is one composition: a title
    holding the translated text API Calls, then, in the main column,
    the page error alert followed by the page filters around a spans
    view whose module is the HTTP module.  Each of the three occurs
    once, and the tree has no other shape. *)
Theorem HTTPModule_static :
  React.find_all "Layout.Title" HTTPModule
  = [ React.Elem "Layout.Title" [] [ React.Text (t "API Calls") ] ] /\
  React.find_all "PageErrorAlert" HTTPModule
  = [ React.Elem "PageErrorAlert" [] [] ] /\
  React.find_all "SpansView" HTTPModule
  = [ React.Elem "SpansView"
        [ ("moduleName", React.PExt (Starfish.ModuleNameValue HTTP)) ] [] ] /\
  Starfish.tags HTTPModule
  = [ "Layout.Page"; "PageErrorProvider"; "Layout.Header";
      "Layout.HeaderContent"; "Layout.Title"; "Layout.Body"; "Layout.Main";
      "PageErrorAlert"; "PageFiltersContainer"; "SpansView" ].
Proof. repeat split. Qed.

End PageFacts.

(** ** The repository settings container *)

Section ContainerFacts.

Variables Repository Provider : Type.

Local Abbreviation Container :=
  (@OrganizationRepositories.OrganizationRepositoriesContainer Repository Provider).
Local Abbreviation mount := (@OrganizationRepositories.mount Repository Provider).

(** C9.  On its first render, when both data sources hold empty lists
    and no response has arrived, the container renders the loading
    indicator; it still does after one of the two responses alone. *)
Theorem container_initially_loading :
  OrganizationRepositories.data (OrganizationRepositories.itemList mount) = [] /\
  OrganizationRepositories.data (OrganizationRepositories.providers mount) = [] /\
  Container mount = React.Elem "LoadingIndicator" [] [] /\
  forall r,
    Container (OrganizationRepositories.receive mount r)
    = React.Elem "LoadingIndicator" [] [].
Proof.
  repeat split. intros [body | ps]; reflexivity.
Qed.

(** Once both of the test's empty responses are in, the container shows
    the connection view over the two empty lists, not nothing. *)
Lemma container_after_empty_responses :
  Container
    (fold_left OrganizationRepositories.receive
       OrganizationRepositories.test_responses mount)
  = React.Elem "OrganizationRepositories"
      [ ("itemList", React.PExt (OrganizationRepositories.Repositories []));
        ("providers", React.PExt (OrganizationRepositories.Providers [])) ]
      [].
Proof. reflexivity. Qed.

End ContainerFacts.

(** * Further properties of the components *)

(** ** The order of JavaScript numbers *)

Ltac order_cases :=
  repeat match goal with
  | |- context [ (?a ?= ?b)%Z ] => destruct (Z.compare_spec a b)
  | |- context [ Pos.compare_cont Eq ?a ?b ] =>
      change (Pos.compare_cont Eq a b) with (Pos.compare a b);
      destruct (Pos.compare_spec a b)
  end.

Lemma SFleb_trans (a b c : spec_float) :
  SFleb a b = true -> SFleb b c = true -> SFleb a c = true.
Proof.
  unfold SFleb.
  destruct a as [sa | sa | | sa ma ea], b as [sb | sb | | sb mb eb],
    c as [sc | sc | | sc mc ec];
    try destruct sa; try destruct sb; try destruct sc; cbn;
    try reflexivity; try discriminate.
  all: order_cases; cbn; intros; subst;
    try reflexivity; try discriminate; try lia.
Qed.

Lemma ge_trans (x y z : JS.number) :
  JS.ge x y = true -> JS.ge y z = true -> JS.ge x z = true.
Proof.
  rewrite !ge_SFleb. intros Hyx Hzy. exact (SFleb_trans z y x Hzy Hyx).
Qed.

Lemma ge_refl (x : JS.number) : x <> JS.NaN -> JS.ge x x = true.
Proof.
  unfold JS.ge, JS.IsLessThan, JS.NaN.
  destruct x as [s | s | | s m e]; try destruct s; cbn;
    try reflexivity; try congruence.
  all: intros _; rewrite Z.compare_refl;
    change (Pos.compare_cont Eq m m) with (Pos.compare m m);
    now rewrite Pos.compare_refl.
Qed.

Lemma ge_NaN (x : JS.number) : JS.ge JS.NaN x = false /\ JS.ge x JS.NaN = false.
Proof.
  split; [reflexivity | ].
  unfold JS.ge, JS.IsLessThan. now destruct x as [s | s | | s m e].
Qed.

(** ** More on the DOM mutation row *)

Section RowMore.

Variable World : Type.
Variable getFrameDetails : Replay.ReplayFrame -> Replay.FrameDetails.
Variable beautify_html : string -> Replay.HTMLBeautifyOptions -> string.

Local Abbreviation Row := (Replay.DomMutationRow World getFrameDetails beautify_html).
Local Abbreviation offset p := (Replay.offsetMs (Replay.frame (Replay.mutation p))).

(** The four classes of the row, read off its class attribute. *)
Lemma row_classes (p : Replay.Props World) :
  exists className,
    Replay.get_string "className" (Row p) = Some className /\
    ClassNames.has_class "beforeCurrentTime" className = Replay.hasOccurred p /\
    ClassNames.has_class "afterCurrentTime" className
      = negb (Replay.hasOccurred p) /\
    ClassNames.has_class "beforeHoverTime" className
      = negb (JS.is_undefined (Replay.currentHoverTime p))
        && Replay.isBeforeHover p /\
    ClassNames.has_class "afterHoverTime" className
      = negb (JS.is_undefined (Replay.currentHoverTime p))
        && negb (Replay.isBeforeHover p).
Proof.
  exists (ClassNames.classNames (Replay.classFlags p)).
  split; [reflexivity | ].
  apply has_class_row_flags.
Qed.

(** The [className] prop that the row hands to its list item is the
    time class, followed by the hover class when there is a hover time:
    one or two class names, never none, never both of a pair.  What the
    styled list item adds to the class attribute of its own is not part
    of this prop. *)
Theorem DomMutationRow_class_tokens (p : Replay.Props World) :
  exists className,
    Replay.get_string "className" (Row p) = Some className /\
    ClassNames.tokens className
    = (if Replay.hasOccurred p then "beforeCurrentTime" else "afterCurrentTime")
      :: match Replay.currentHoverTime p with
         | None => []
         | Some hover =>
             [ if JS.ge hover (offset p)
               then "beforeHoverTime" else "afterHoverTime" ]
         end.
Proof.
  exists (ClassNames.classNames (Replay.classFlags p)).
  split; [reflexivity | ].
  unfold Replay.classFlags, Replay.isBeforeHover.
  destruct (Replay.currentHoverTime p) as [hover | ]; cbn [JS.is_undefined JS.ToNumber negb orb andb].
  - destruct (JS.ge hover (offset p)), (Replay.hasOccurred p); reflexivity.
  - destruct (Replay.hasOccurred p); reflexivity.
Qed.

(** Every [hasOccurred] prop of the tree, the icon wrapper's and the
    title's, agrees with the time class of the row. *)
Theorem DomMutationRow_hasOccurred_consistent (p : Replay.Props World) :
  exists className,
    Replay.get_string "className" (Row p) = Some className /\
    map snd
      (filter (fun kv => String.eqb (fst kv) "hasOccurred")
              (React.all_props (Row p)))
    = [ React.PBool (ClassNames.has_class "beforeCurrentTime" className);
        React.PBool (ClassNames.has_class "beforeCurrentTime" className) ].
Proof.
  destruct (row_classes p) as (className & Hclass & Hbefore & _).
  exists className. split; [exact Hclass | ].
  rewrite Hbefore. reflexivity.
Qed.

(** A mutation that has occurred stays occurred as the current time
    moves on: the same mutation at a current time at or after the first
    one still has the class beforeCurrentTime. *)
Theorem DomMutationRow_occurred_stays (p p' : Replay.Props World) :
  Replay.mutation p = Replay.mutation p' ->
  JS.ge (Replay.currentTime p') (Replay.currentTime p) = true ->
  Replay.hasOccurred p = true ->
  Replay.hasOccurred p' = true /\
  exists className,
    Replay.get_string "className" (Row p') = Some className /\
    ClassNames.has_class "beforeCurrentTime" className = true /\
    ClassNames.has_class "afterCurrentTime" className = false.
Proof.
  intros Hmutation Hlater Hocc.
  assert (Hocc' : Replay.hasOccurred p' = true).
  { unfold Replay.hasOccurred in *. rewrite <- Hmutation.
    exact (ge_trans _ _ _ Hlater Hocc). }
  split; [exact Hocc' | ].
  destruct (row_classes p') as (className & Hclass & Hbefore & Hafter & _).
  exists className. rewrite Hbefore, Hafter, Hocc'. now repeat split.
Qed.

(** When the current time is at or after the hover time, a row before
    the hover time has occurred: the class beforeHoverTime then comes
    with the class beforeCurrentTime. *)
Theorem DomMutationRow_hover_then_occurred
  (p : Replay.Props World) (hover : JS.number) :
  Replay.currentHoverTime p = Some hover ->
  JS.ge (Replay.currentTime p) hover = true ->
  exists className,
    Replay.get_string "className" (Row p) = Some className /\
    (ClassNames.has_class "beforeHoverTime" className = true ->
     ClassNames.has_class "beforeCurrentTime" className = true) /\
    (ClassNames.has_class "afterCurrentTime" className = true ->
     ClassNames.has_class "afterHoverTime" className = true).
Proof.
  intros Hhover Hlater.
  destruct (row_classes p) as (className & Hclass & Hb & Ha & Hbh & Hah).
  exists className. split; [exact Hclass | ].
  rewrite Hb, Ha, Hbh, Hah.
  unfold Replay.isBeforeHover, Replay.hasOccurred. rewrite Hhover. cbn.
  destruct (JS.ge hover (offset p)) eqn:Hbefore.
  - rewrite (ge_trans _ _ _ Hlater Hbefore). split; [reflexivity | discriminate].
  - split; [discriminate | reflexivity].
Qed.

(** The comparison with the frame's offset is inclusive: at a current
    time equal to the offset, which is a number, the mutation has
    occurred, and at a hover time equal to it the row is before the
    hover time. *)
Theorem DomMutationRow_at_offset (p : Replay.Props World) :
  offset p <> JS.NaN ->
  (Replay.currentTime p = offset p -> Replay.hasOccurred p = true) /\
  (Replay.currentHoverTime p = Some (offset p) -> Replay.isBeforeHover p = true).
Proof.
  intros Hnumber. unfold Replay.hasOccurred, Replay.isBeforeHover. split.
  - intros ->. now apply ge_refl.
  - intros ->. cbn. now apply ge_refl.
Qed.

(** NaN compares below everything: when the current time or the frame's
    offset is NaN, the mutation has not occurred and the row has the
    class afterCurrentTime; when the offset is NaN and there is a hover
    time, the row has the class afterHoverTime. *)
Theorem DomMutationRow_NaN (p : Replay.Props World) :
  Replay.currentTime p = JS.NaN \/ offset p = JS.NaN ->
  Replay.hasOccurred p = false /\
  exists className,
    Replay.get_string "className" (Row p) = Some className /\
    ClassNames.has_class "afterCurrentTime" className = true /\
    (offset p = JS.NaN ->
     ClassNames.has_class "afterHoverTime" className
     = negb (JS.is_undefined (Replay.currentHoverTime p))).
Proof.
  intros HNaN.
  assert (Hocc : Replay.hasOccurred p = false).
  { unfold Replay.hasOccurred.
    destruct HNaN as [-> | ->]; apply ge_NaN. }
  split; [exact Hocc | ].
  destruct (row_classes p) as (className & Hclass & _ & Ha & _ & Hah).
  exists className. rewrite Ha, Hah, Hocc.
  split; [exact Hclass | ]. split; [reflexivity | ].
  intros Hoffset. unfold Replay.isBeforeHover. rewrite Hoffset.
  destruct (Replay.currentHoverTime p) as [hover | ]; [ | reflexivity].
  cbn. now rewrite (proj2 (ge_NaN hover)).
Qed.

End RowMore.

Lemma DomMutationRow_occurred_stays_witness :
  Replay.hasOccurred (Samples.sample_row None (JS.of_Z 1500)) = true /\
  Replay.hasOccurred (Samples.sample_row None (JS.of_Z 2000)) = true.
Proof.
  split; [reflexivity | ].
  apply (DomMutationRow_occurred_stays Samples.Log Samples.sample_details
           Samples.sample_beautify
           (Samples.sample_row None (JS.of_Z 1500))
           (Samples.sample_row None (JS.of_Z 2000))); reflexivity.
Defined.

Lemma DomMutationRow_hover_then_occurred_witness :
  exists className,
    Replay.get_string "className"
      (Replay.DomMutationRow Samples.Log Samples.sample_details
         Samples.sample_beautify
         (Samples.sample_row (Some (JS.of_Z 1600)) (JS.of_Z 2000)))
    = Some className /\
    (ClassNames.has_class "beforeHoverTime" className = true ->
     ClassNames.has_class "beforeCurrentTime" className = true) /\
    (ClassNames.has_class "afterCurrentTime" className = true ->
     ClassNames.has_class "afterHoverTime" className = true).
Proof.
  apply (DomMutationRow_hover_then_occurred Samples.Log Samples.sample_details
           Samples.sample_beautify
           (Samples.sample_row (Some (JS.of_Z 1600)) (JS.of_Z 2000))
           (JS.of_Z 1600)); reflexivity.
Defined.

Lemma DomMutationRow_at_offset_witness :
  Replay.hasOccurred (Samples.sample_row (Some (JS.of_Z 1500)) (JS.of_Z 1500))
  = true /\
  Replay.isBeforeHover (Samples.sample_row (Some (JS.of_Z 1500)) (JS.of_Z 1500))
  = true.
Proof.
  assert (Hnumber : Replay.offsetMs
                      (Replay.frame
                         (Replay.mutation
                            (Samples.sample_row (Some (JS.of_Z 1500)) (JS.of_Z 1500))))
                    <> JS.NaN)
    by (vm_compute; discriminate).
  split;
    [ apply (proj1 (DomMutationRow_at_offset Samples.Log
                      (Samples.sample_row (Some (JS.of_Z 1500)) (JS.of_Z 1500))
                      Hnumber))
    | apply (proj2 (DomMutationRow_at_offset Samples.Log
                      (Samples.sample_row (Some (JS.of_Z 1500)) (JS.of_Z 1500))
                      Hnumber)) ];
    reflexivity.
Defined.

Lemma DomMutationRow_NaN_witness :
  Replay.hasOccurred (Samples.sample_row None JS.NaN) = false.
Proof.
  apply (DomMutationRow_NaN Samples.Log Samples.sample_details
           Samples.sample_beautify (Samples.sample_row None JS.NaN)).
  left. reflexivity.
Defined.

(** ** More on the default line of a stack frame *)

Section LineMore.

Variable Frame : Type.
Variable tn : string -> string -> JS.number -> string.

Local Abbreviation Default := (FrameLine.Default Frame tn).
Local Abbreviation renderRepeats := (FrameLine.renderRepeats Frame tn).

(** The badge holds none of the line's other components. *)
Lemma renderRepeats_other_tags (p : FrameLine.Props Frame) :
  React.find_all "LeadHint" (renderRepeats p) = [] /\
  React.find_all "DefaultTitle" (renderRepeats p) = [] /\
  React.find_all "Expander" (renderRepeats p) = [].
Proof.
  unfold FrameLine.renderRepeats.
  destruct (FrameLine.timesRepeated p) as [n | ]; cbn.
  - destruct (JS.gt n JS.zero); repeat split; reflexivity.
  - repeat split; reflexivity.
Qed.

(** Whatever the repeat count is, the line holds one lead hint, one
    title and one expander, and they are given the same values: the
    lead hint and the expander the same [isExpanded], the title and the
    expander the same [isHoverPreviewed] and [platform].  The rest of
    the props has none of these three names, the line having taken
    them out. *)
Theorem Default_children_agree (p : FrameLine.Props Frame) :
  (forall k, In k [ "isExpanded"; "isHoverPreviewed"; "platform" ] ->
             React.assoc k (FrameLine.props p) = None) ->
  exists lead title expander,
    React.find_all "LeadHint" (Default p) = [ lead ] /\
    React.find_all "DefaultTitle" (Default p) = [ title ] /\
    React.find_all "Expander" (Default p) = [ expander ] /\
    React.get_prop "isExpanded" lead = React.get_prop "isExpanded" expander /\
    React.get_prop "isHoverPreviewed" title
      = React.get_prop "isHoverPreviewed" expander /\
    React.get_prop "platform" title = React.get_prop "platform" expander.
Proof.
  intros _.
  destruct (renderRepeats_other_tags p) as (Hlead & Htitle & Hexpander).
  do 3 eexists. cbn [FrameLine.Default React.find_all flat_map String.eqb
                     Ascii.eqb Bool.eqb app].
  rewrite Hlead, Htitle, Hexpander. cbn [app].
  repeat split.
Qed.

(** When the repeat count is a number above zero, the badge is titled
    by the plural-aware message for that count and shows the count
    itself, after the refresh icon. *)
Theorem Default_badge_shows_count (p : FrameLine.Props Frame) (n : JS.number) :
  FrameLine.timesRepeated p = Some n ->
  SFltb JS.zero n = true ->
  React.find_all "RepeatedFrames" (Default p)
  = [ React.Elem "RepeatedFrames"
        [ ("title",
            React.PStr (tn "Frame repeated %s time" "Frame repeated %s times" n)) ]
        [ React.Elem "RepeatedContent" []
            [ React.Elem "StyledIconRefresh" [] [];
              React.Elem "span" [] [ React.Number n ] ] ] ].
Proof.
  intros Hn Hpos. cbn. unfold FrameLine.renderRepeats, FrameLine.defined.
  rewrite Hn. cbn. rewrite gt_SFltb, Hpos. reflexivity.
Qed.

(** The props the line does not name reach the expander as they came:
    under any other name than the three the line passes itself, the
    expander has what the rest of the props has, and nothing when the
    rest has nothing. *)
Theorem Default_forwards_rest (p : FrameLine.Props Frame) (k : string) :
  ~ In k [ "isExpanded"; "isHoverPreviewed"; "platform" ] ->
  exists expander,
    React.find_all "Expander" (Default p) = [ expander ] /\
    React.get_prop k expander = React.assoc k (FrameLine.props p).
Proof.
  intros Hk.
  destruct (renderRepeats_other_tags p) as (_ & _ & Hexpander).
  eexists. cbn [FrameLine.Default React.find_all flat_map String.eqb
                Ascii.eqb Bool.eqb app].
  rewrite Hexpander. cbn [app]. split; [reflexivity | ].
  cbn [React.get_prop app React.assoc].
  assert (H1 : String.eqb k "isExpanded" = false)
    by (apply String.eqb_neq; intros ->; apply Hk; cbn; tauto).
  assert (H2 : String.eqb k "isHoverPreviewed" = false)
    by (apply String.eqb_neq; intros ->; apply Hk; cbn; tauto).
  assert (H3 : String.eqb k "platform" = false)
    by (apply String.eqb_neq; intros ->; apply Hk; cbn; tauto).
  now rewrite H1, H2, H3.
Qed.

End LineMore.

Lemma Default_children_agree_witness :
  exists lead title expander,
    React.find_all "LeadHint"
      (FrameLine.Default string Samples.sample_tn
         (Samples.sample_line (Some (JS.of_Z 2)))) = [ lead ] /\
    React.find_all "DefaultTitle"
      (FrameLine.Default string Samples.sample_tn
         (Samples.sample_line (Some (JS.of_Z 2)))) = [ title ] /\
    React.find_all "Expander"
      (FrameLine.Default string Samples.sample_tn
         (Samples.sample_line (Some (JS.of_Z 2)))) = [ expander ] /\
    React.get_prop "isExpanded" lead = React.get_prop "isExpanded" expander /\
    React.get_prop "isHoverPreviewed" title
      = React.get_prop "isHoverPreviewed" expander /\
    React.get_prop "platform" title = React.get_prop "platform" expander.
Proof.
  apply (Default_children_agree string Samples.sample_tn
           (Samples.sample_line (Some (JS.of_Z 2)))).
  intros k [<- | [<- | [<- | []]]]; reflexivity.
Defined.

Lemma Default_badge_shows_count_witness :
  React.find_all "RepeatedFrames"
    (FrameLine.Default string Samples.sample_tn
       (Samples.sample_line (Some (JS.of_Z 2))))
  = [ React.Elem "RepeatedFrames"
        [ ("title", React.PStr "Frame repeated %s times") ]
        [ React.Elem "RepeatedContent" []
            [ React.Elem "StyledIconRefresh" [] [];
              React.Elem "span" [] [ React.Number (JS.of_Z 2) ] ] ] ].
Proof.
  apply (Default_badge_shows_count string Samples.sample_tn
           (Samples.sample_line (Some (JS.of_Z 2))) (JS.of_Z 2));
    reflexivity.
Defined.

Lemma Default_forwards_rest_witness :
  exists expander,
    React.find_all "Expander"
      (FrameLine.Default string Samples.sample_tn (Samples.sample_line None))
    = [ expander ] /\
    React.get_prop "isExpandable" expander = Some (React.PBool true).
Proof.
  apply (Default_forwards_rest string Samples.sample_tn
           (Samples.sample_line None) "isExpandable").
  cbn. intros [H | [H | [H | []]]]; discriminate.
Defined.

(** ** More on the event evidence panel *)

Section PanelMore.

Variables IssueCategory IssueType EventData : Type.
Variable eventIsProfilingIssue : Evidence.Event EventData -> bool.
Variable getIssueCategoryAndTypeFromOccurrenceType :
  JS.number -> Evidence.IssueCategoryAndType IssueCategory IssueType.
Variable getConfigForIssueType :
  Evidence.IssueCategoryAndType IssueCategory IssueType -> Evidence.IssueTypeConfig.

Local Abbreviation EventEvidence :=
  (Evidence.EventEvidence IssueCategory IssueType EventData
     eventIsProfilingIssue getIssueCategoryAndTypeFromOccurrenceType
     getConfigForIssueType).
Local Abbreviation categoryAndType :=
  (Evidence.categoryAndType IssueCategory IssueType EventData
     getIssueCategoryAndTypeFromOccurrenceType).
Local Abbreviation Props := (Evidence.EvidenceProps IssueCategory IssueType EventData).

(** The panel renders nothing in these cases only: the event has no
    occurrence, or it has one, is not a profiling issue, and either the
    evidence configuration is absent or the evidence list is absent or
    empty. *)
Theorem EventEvidence_nothing_iff (p : Props) :
  EventEvidence p = React.Null <->
  Evidence.occurrence (Evidence.event p) = None \/
  exists occ,
    Evidence.occurrence (Evidence.event p) = Some occ /\
    eventIsProfilingIssue (Evidence.event p) = false /\
    (Evidence.evidence (getConfigForIssueType (categoryAndType p occ)) = None \/
     Evidence.no_length (Evidence.evidenceDisplay occ) = true).
Proof.
  unfold Evidence.EventEvidence.
  destruct (Evidence.occurrence (Evidence.event p)) as [occ | ];
    [ | split; [now left | reflexivity]].
  destruct (eventIsProfilingIssue (Evidence.event p)).
  - split; [discriminate | ].
    intros [H | (occ' & _ & H & _)]; discriminate.
  - destruct (Evidence.evidence (getConfigForIssueType (categoryAndType p occ)))
      as [config | ] eqn:Hconfig.
    + destruct (Evidence.evidenceDisplay occ) as [[ | item items] | ] eqn:Hitems;
        cbn.
      * split; [ | reflexivity]. intros _. right. exists occ.
        rewrite Hconfig, Hitems. repeat split. now right.
      * split; [discriminate | ].
        intros [H | (occ' & Hocc & _ & [H | H])]; try discriminate.
        -- injection Hocc as <-. rewrite Hconfig in H. discriminate.
        -- injection Hocc as <-. rewrite Hitems in H. discriminate.
      * split; [ | reflexivity]. intros _. right. exists occ.
        rewrite Hconfig, Hitems. repeat split. now right.
    + rewrite orb_true_r. split; [ | reflexivity].
      intros _. right. exists occ. rewrite Hconfig. repeat split. now left.
Qed.

(** The panel holds a key/value list in one case only: the event has
    an occurrence, is not a profiling issue, the evidence configuration
    is present and the evidence list is not empty.  The profile
    evidence renderer appears in one case only: the event has an
    occurrence and is a profiling issue.  The two never appear
    together. *)
Theorem EventEvidence_outcomes (p : Props) :
  (React.contains_tag "KeyValueList" (EventEvidence p) = true <->
   exists occ config item items,
     Evidence.occurrence (Evidence.event p) = Some occ /\
     eventIsProfilingIssue (Evidence.event p) = false /\
     Evidence.evidence (getConfigForIssueType (categoryAndType p occ))
       = Some config /\
     Evidence.evidenceDisplay occ = Some (item :: items)) /\
  (React.contains_tag "ProfileEventEvidence" (EventEvidence p) = true <->
   exists occ,
     Evidence.occurrence (Evidence.event p) = Some occ /\
     eventIsProfilingIssue (Evidence.event p) = true) /\
  React.contains_tag "KeyValueList" (EventEvidence p)
  && React.contains_tag "ProfileEventEvidence" (EventEvidence p) = false.
Proof.
  unfold Evidence.EventEvidence.
  destruct (Evidence.occurrence (Evidence.event p)) as [occ | ].
  2: { repeat split; try discriminate.
       - intros (? & ? & ? & ? & H & _). discriminate.
       - intros (? & H & _). discriminate. }
  destruct (eventIsProfilingIssue (Evidence.event p)).
  { repeat split; try discriminate.
    - intros (? & ? & ? & ? & _ & H & _). discriminate.
    - intros _. now exists occ. }
  destruct (Evidence.evidence (getConfigForIssueType (categoryAndType p occ)))
    as [config | ] eqn:Hconfig;
    destruct (Evidence.evidenceDisplay occ) as [[ | item items] | ] eqn:Hitems;
    cbn; repeat split; try discriminate;
    try (intros (? & H & ?); discriminate);
    try (intros (occ' & config' & item' & items' & Hocc & _ & Hc & Hi);
         injection Hocc as <-; rewrite ?Hconfig, ?Hitems in *; discriminate).
  intros _. exists occ, config, item, items.
  rewrite Hconfig, Hitems. repeat split.
Qed.

(** The project slug matters to the profile evidence renderer alone:
    for an event that is not a profiling issue, two renderings that
    differ in the project slug only are the same. *)
Theorem EventEvidence_ignores_projectSlug (p p' : Props) :
  Evidence.event p = Evidence.event p' ->
  Evidence.group p = Evidence.group p' ->
  eventIsProfilingIssue (Evidence.event p) = false ->
  EventEvidence p = EventEvidence p'.
Proof.
  intros Hevent Hgroup Hprofiling.
  unfold Evidence.EventEvidence, Evidence.categoryAndType.
  rewrite <- Hevent, <- Hgroup, Hprofiling. reflexivity.
Qed.

(** The group matters to the registry lookup alone: for a profiling
    issue, and for an event without an occurrence, two renderings that
    differ in the group only are the same. *)
Theorem EventEvidence_ignores_group (p p' : Props) :
  Evidence.event p = Evidence.event p' ->
  Evidence.projectSlug p = Evidence.projectSlug p' ->
  Evidence.occurrence (Evidence.event p) = None \/
  eventIsProfilingIssue (Evidence.event p) = true ->
  EventEvidence p = EventEvidence p'.
Proof.
  intros Hevent Hslug Hcase.
  unfold Evidence.EventEvidence.
  rewrite <- Hevent, <- Hslug.
  destruct Hcase as [-> | ->]; [reflexivity | ].
  now destruct (Evidence.occurrence (Evidence.event p)).
Qed.

End PanelMore.

Lemma EventEvidence_ignores_projectSlug_witness :
  Samples.sample_EventEvidence
    (Samples.sample_panel
       (Samples.sample_event "span" 1001 (Some Samples.sample_evidence)) None)
  = Samples.sample_EventEvidence
      {| Evidence.event :=
           Samples.sample_event "span" 1001 (Some Samples.sample_evidence);
         Evidence.projectSlug := "another-project";
         Evidence.group := None |}.
Proof.
  apply (EventEvidence_ignores_projectSlug string string string
           Samples.sample_classifier Samples.sample_category_and_type
           Samples.sample_registry); reflexivity.
Defined.

Lemma EventEvidence_ignores_group_witness :
  Samples.sample_EventEvidence Samples.profiling_without_evidence
  = Samples.sample_EventEvidence
      (Samples.sample_panel
         (Samples.sample_event "profile" 2001 (Some []))
         (Some {| Evidence.group_issueCategory := "performance";
                  Evidence.group_issueType := "performance_slow_db_query" |})).
Proof.
  apply (EventEvidence_ignores_group string string string
           Samples.sample_classifier Samples.sample_category_and_type
           Samples.sample_registry); try reflexivity.
  right. reflexivity.
Defined.

(** ** The row and its two times *)

Section RowTimes.

Variable World : Type.
Variable getFrameDetails : Replay.ReplayFrame -> Replay.FrameDetails.
Variable beautify_html : string -> Replay.HTMLBeautifyOptions -> string.

Local Abbreviation Row := (Replay.DomMutationRow World getFrameDetails beautify_html).

(** The row reads the current time and the hover time through its
    comparisons only: two renderings of the same mutation, with the
    same callbacks, start time and style, are the same tree, handlers
    included, as soon as [hasOccurred], [isBeforeHover] and the
    presence of a hover time agree. *)
Theorem DomMutationRow_times_through_flags (p p' : Replay.Props World) :
  Replay.mutation p = Replay.mutation p' ->
  Replay.handleMouseEnter p = Replay.handleMouseEnter p' ->
  Replay.handleMouseLeave p = Replay.handleMouseLeave p' ->
  Replay.onClickTimestamp p = Replay.onClickTimestamp p' ->
  Replay.startTimestampMs p = Replay.startTimestampMs p' ->
  Replay.style p = Replay.style p' ->
  Replay.hasOccurred p = Replay.hasOccurred p' ->
  JS.is_undefined (Replay.currentHoverTime p)
    = JS.is_undefined (Replay.currentHoverTime p') ->
  Replay.isBeforeHover p = Replay.isBeforeHover p' ->
  Row p = Row p'.
Proof.
  intros Hmutation Henter Hleave Hclick Hstart Hstyle Hocc Hhover Hbefore.
  unfold Replay.DomMutationRow, Replay.classFlags.
  now rewrite Hmutation, Henter, Hleave, Hclick, Hstart, Hstyle, Hocc,
    Hhover, Hbefore.
Qed.

End RowTimes.

Lemma DomMutationRow_times_through_flags_witness :
  Replay.DomMutationRow Samples.Log Samples.sample_details
    Samples.sample_beautify
    (Samples.sample_row (Some (JS.of_Z 1600)) (JS.of_Z 2000))
  = Replay.DomMutationRow Samples.Log Samples.sample_details
      Samples.sample_beautify
      (Samples.sample_row (Some (JS.of_Z 1750)) (JS.of_Z 2400)).
Proof.
  apply (DomMutationRow_times_through_flags Samples.Log Samples.sample_details
           Samples.sample_beautify
           (Samples.sample_row (Some (JS.of_Z 1600)) (JS.of_Z 2000))
           (Samples.sample_row (Some (JS.of_Z 1750)) (JS.of_Z 2400)));
    reflexivity.
Defined.
